(** * The Maxwell DMA copy engine (video_core/engines/maxwell_dma.cpp)

    A shallow embedding of [MaxwellDMA::CallMethod] and
    [MaxwellDMA::HandleCopy].  The engine talks to three collaborators (the
    memory manager, the rasterizer and the texture decoders); a run of the
    engine is modelled by the ordered list of calls it makes to them together
    with the way the run ends. *)

From Stdlib Require Import ZArith Lia String List Bool.
From stdpp Require Import base list.

Local Open Scope Z_scope.

(** ** Machine integers *)

(** [u32] and [u64] values are integers reduced modulo the width of the type;
    [GPUVAddr] is a [u64], registers are [u32]. *)
Definition u32 (z : Z) : Z := z mod 2 ^ 32.
Definition u64 (z : Z) : Z := z mod 2 ^ 64.

Definition is_u32 (z : Z) : Prop := 0 <= z < 2 ^ 32.
Definition is_u64 (z : Z) : Prop := 0 <= z < 2 ^ 64.

(** C++ truth value of an integer used as a condition. *)
Definition truthy (z : Z) : bool := negb (z =? 0).

(** ** Calls to the collaborators *)

Inductive Event : Type :=
| LogWarning (msg : string)
| LogError (msg : string)
| OnMemoryWrite
| GetPointer (addr : Z)
| CopyBlock (dest source size : Z)
| FlushRegion (addr size : Z)
| InvalidateRegion (addr size : Z)
| UnswizzleSubrect (subrect_width subrect_height dest_pitch swizzled_width
                    bytes_per_pixel swizzled_data unswizzled_data
                    block_height offset_x offset_y : Z)
| SwizzleSubrect (subrect_width subrect_height source_pitch swizzled_width
                  bytes_per_pixel swizzled_data unswizzled_data
                  block_height : Z).

(** Classification of the calls. *)
Definition is_notify (e : Event) : bool :=
  match e with OnMemoryWrite => true | _ => false end.

Definition is_copy (e : Event) : bool :=
  match e with CopyBlock _ _ _ => true | _ => false end.

Definition is_flush (e : Event) : bool :=
  match e with FlushRegion _ _ => true | _ => false end.

Definition is_invalidate (e : Event) : bool :=
  match e with InvalidateRegion _ _ => true | _ => false end.

Definition is_cache (e : Event) : bool := is_flush e || is_invalidate e.

Definition is_transform (e : Event) : bool :=
  match e with
  | UnswizzleSubrect _ _ _ _ _ _ _ _ _ _ => true
  | SwizzleSubrect _ _ _ _ _ _ _ _ => true
  | _ => false
  end.

(** The calls that write bytes of device memory. *)
Definition moves_bytes (e : Event) : bool := is_copy e || is_transform e.

(** Every call other than logging, the notification and pointer lookup. *)
Definition touches_memory (e : Event) : bool := moves_bytes e || is_cache e.

(** ** Runs *)

Inductive Failure : Type :=
| AssertionFailed
| UnreachableCode (msg : string)
| DivisionByZero.

Inductive Outcome (A : Type) : Type :=
| Returned (a : A)
| Aborted (f : Failure).
Arguments Returned {A} a.
Arguments Aborted {A} f.

(** A run: the calls made, in order, and how the run ended. *)
Definition Run (A : Type) : Type := (list Event * Outcome A)%type.

Definition ret {A} (a : A) : Run A := ([], Returned a).

Definition bind {A B} (m : Run A) (k : A -> Run B) : Run B :=
  match m with
  | (t, Returned a) => let (t', r) := k a in (t ++ t', r)
  | (t, Aborted f) => (t, Aborted f)
  end.

Definition call (e : Event) : Run unit := ([e], Returned tt).

Definition abort {A} (f : Failure) : Run A := ([], Aborted f).

Definition calls {A} (m : Run A) : list Event := fst m.
Definition outcome {A} (m : Run A) : Outcome A := snd m.

Declare Scope run_scope.
Delimit Scope run_scope with run.
Notation "x <- c1 ;; c2" := (bind c1 (fun x => c2))
  (at level 100, c1 at next level, right associativity) : run_scope.
Notation "c1 ;; c2" := (bind c1 (fun _ => c2))
  (at level 100, right associativity) : run_scope.
Local Open Scope run_scope.

(** Modelled from the spec: the macros [ASSERT], [ASSERT_MSG] and
    [UNREACHABLE_MSG] of common/assert.h, which is not part of the sources at
    hand.  A failed check is fatal: it is reported and the run stops there. *)
Definition ASSERT (cond : bool) : Run unit :=
  if cond then ret tt else abort AssertionFailed.

Definition ASSERT_MSG (cond : bool) (msg : string) : Run unit :=
  if cond then ret tt else abort AssertionFailed.

Definition UNREACHABLE_MSG {A} (msg : string) : Run A :=
  abort (UnreachableCode msg).

Definition LOG_WARNING (msg : string) : Run unit := call (LogWarning msg).
Definition LOG_ERROR (msg : string) : Run unit := call (LogError msg).

(** Unsigned 32-bit division; a zero divisor has no defined result in C++ and
    the run stops there. *)
Definition udiv32 (a b : Z) : Run Z :=
  if b =? 0 then abort DivisionByZero else ret (a / b).

(** [for (u32 line = first; line < first + count; ++line) body(line)] *)
Fixpoint for_lines (count : nat) (line : Z) (body : Z -> Run unit) : Run unit :=
  match count with
  | O => ret tt
  | S count' => body line ;; for_lines count' (line + 1) body
  end.

(** ** Registers *)

(** The named view of the register file that [HandleCopy] reads.  Enumerated
    fields hold the numeric value of the enumerator; [src_address] and
    [dst_address] hold the value of [Address()], and [BlockHeight] the value
    of [BlockHeight()]. *)
Record Exec : Type := {
  copy_mode : Z;
  query_mode : Z;
  query_intr : Z;
  is_src_linear : Z;
  is_dst_linear : Z;
  enable_2d : Z;
  enable_swizzle : Z
}.

Record Parameters : Type := {
  size_x : Z;
  size_y : Z;
  size_z : Z;
  pos_x : Z;
  pos_y : Z;
  BlockHeight : Z
}.

Record Regs : Type := {
  exec : Exec;
  src_address : Z;
  dst_address : Z;
  src_pitch : Z;
  dst_pitch : Z;
  x_count : Z;
  y_count : Z;
  dst_params : Parameters;
  src_params : Parameters
}.

(** The declarations of video_core/engines/maxwell_dma.h that the engine
    relies on.  The header is not part of the sources at hand, so the register
    count, the index of [exec], the enumerators and the overlay of the named
    fields on [reg_array] are parameters of the development. *)
Record Header : Type := {
  NUM_REGS : Z;
  REG_INDEX_exec : Z;
  QueryMode_None : Z;
  QueryIntr_None : Z;
  CopyMode_Unk2 : Z;
  view : list Z -> Regs
}.

Record MethodCall : Type := {
  method : Z;
  argument : Z
}.

(** ** The engine *)

Section Engine.

Variable hdr : Header.

(** [memory_manager.GetPointer]: the host pointer an address is mapped to,
    if any. *)
Variable memory : Z -> option Z.

(** [ToCacheAddr]: the cache address of a host pointer. *)
Variable ToCacheAddr : Z -> Z.

Definition get_pointer (addr : Z) : Run (option Z) :=
  call (GetPointer addr) ;; ret (memory addr).

(** The lambda [FlushAndInvalidate] of [HandleCopy]. *)
Definition FlushAndInvalidate (source_ptr dst_ptr : Z) (src_size dst_size : Z)
  : Run unit :=
  call (FlushRegion (ToCacheAddr source_ptr) src_size) ;;
  call (InvalidateRegion (ToCacheAddr dst_ptr) dst_size).

Definition HandleCopy (regs : Regs) : Run unit :=
  LOG_WARNING "Requested a DMA copy" ;;
  let source := src_address regs in
  let dest := dst_address regs in
  ASSERT (enable_swizzle (exec regs) =? 0) ;;
  ASSERT (query_mode (exec regs) =? QueryMode_None hdr) ;;
  ASSERT (query_intr (exec regs) =? QueryIntr_None hdr) ;;
  ASSERT (copy_mode (exec regs) =? CopyMode_Unk2 hdr) ;;
  ASSERT (pos_x (dst_params regs) =? 0) ;;
  ASSERT (pos_y (dst_params regs) =? 0) ;;
  if negb (truthy (is_dst_linear (exec regs)))
     && negb (truthy (is_src_linear (exec regs)))
  then UNREACHABLE_MSG "Tiled->Tiled DMA transfers are not yet implemented"
  else
    call OnMemoryWrite ;;
    if truthy (is_dst_linear (exec regs)) && truthy (is_src_linear (exec regs))
    then
      if negb (truthy (enable_2d (exec regs)))
      then call (CopyBlock dest source (x_count regs))
      else
        for_lines (Z.to_nat (y_count regs)) 0 (fun line =>
          let source_line := u64 (source + u32 (line * src_pitch regs)) in
          let dest_line := u64 (dest + u32 (line * dst_pitch regs)) in
          call (CopyBlock dest_line source_line (x_count regs)))
    else
      ASSERT (enable_2d (exec regs) =? 1) ;;
      let copy_size := u32 (x_count regs * y_count regs) in
      source_ptr <- get_pointer source ;;
      dst_ptr <- get_pointer dest ;;
      match source_ptr with
      | None => LOG_ERROR "source_ptr is invalid"
      | Some source_ptr =>
        match dst_ptr with
        | None => LOG_ERROR "dst_ptr is invalid"
        | Some dst_ptr =>
          if truthy (is_dst_linear (exec regs))
             && negb (truthy (is_src_linear (exec regs)))
          then
            ASSERT (size_z (src_params regs) =? 1) ;;
            src_bytes_per_pixel <-
              udiv32 (src_pitch regs) (size_x (src_params regs)) ;;
            FlushAndInvalidate source_ptr dst_ptr
              (u32 (src_pitch regs * size_y (src_params regs)))
              (u64 (copy_size * src_bytes_per_pixel)) ;;
            call (UnswizzleSubrect (x_count regs) (y_count regs)
                    (dst_pitch regs) (size_x (src_params regs))
                    src_bytes_per_pixel source_ptr dst_ptr
                    (BlockHeight (src_params regs))
                    (pos_x (src_params regs)) (pos_y (src_params regs)))
          else
            ASSERT (size_z (dst_params regs) =? 1) ;;
            ASSERT (src_pitch regs =? x_count regs) ;;
            src_bpp <- udiv32 (src_pitch regs) (x_count regs) ;;
            FlushAndInvalidate source_ptr dst_ptr
              (u32 (src_pitch regs * y_count regs))
              (u32 (u32 (size_x (dst_params regs) * size_y (dst_params regs))
                    * src_bpp)) ;;
            call (SwizzleSubrect (x_count regs) (y_count regs)
                    (src_pitch regs) (size_x (dst_params regs)) src_bpp
                    dst_ptr source_ptr (BlockHeight (dst_params regs)))
        end
      end.

(** [CallMethod] stores the argument and, when the register is [exec], runs
    the copy; the result is the register file after the call. *)
Definition CallMethod (reg_array : list Z) (method_call : MethodCall)
  : Run (list Z) :=
  ASSERT_MSG (method method_call <? NUM_REGS hdr)
    "Invalid MaxwellDMA register, increase the size of the Regs structure" ;;
  let reg_array' :=
    <[Z.to_nat (method method_call) := argument method_call]> reg_array in
  (if method method_call =? REG_INDEX_exec hdr
   then HandleCopy (view hdr reg_array')
   else ret tt) ;;
  ret reg_array'.

End Engine.

(** ** A register layout to run the engine on

    One instance of [Header]: [exec] at word 0xC0 with its flags packed from
    bit 0 upwards, the addresses and the copy extent from word 0x100, the two
    surface descriptions from words 0x1C3 and 0x1CA.  It serves to run the
    engine on register writes; no theorem about the engine depends on it. *)

(** [BitField<pos, len, u32>] *)
Definition bits (word pos len : Z) : Z :=
  Z.land (Z.shiftr word pos) (Z.ones len).

Definition reg (reg_array : list Z) (index : nat) : Z :=
  default 0 (reg_array !! index).

Definition example_exec (word : Z) : Exec :=
  {| copy_mode := bits word 0 2;
     query_mode := bits word 3 2;
     query_intr := bits word 5 2;
     is_src_linear := bits word 7 1;
     is_dst_linear := bits word 8 1;
     enable_2d := bits word 9 1;
     enable_swizzle := bits word 10 1 |}.

Definition example_address (reg_array : list Z) (index : nat) : Z :=
  Z.lor (Z.shiftl (reg reg_array index) 32) (reg reg_array (S index)).

Definition example_parameters (reg_array : list Z) (index : nat) : Parameters :=
  {| size_x := reg reg_array (index + 1);
     size_y := reg reg_array (index + 2);
     size_z := reg reg_array (index + 3);
     pos_x := bits (reg reg_array (index + 5)) 0 16;
     pos_y := bits (reg reg_array (index + 5)) 16 16;
     BlockHeight := u32 (Z.shiftl 1 (bits (reg reg_array index) 4 4)) |}.

Definition example_view (reg_array : list Z) : Regs :=
  {| exec := example_exec (reg reg_array 192);
     src_address := example_address reg_array 256;
     dst_address := example_address reg_array 258;
     src_pitch := reg reg_array 260;
     dst_pitch := reg reg_array 261;
     x_count := reg reg_array 262;
     y_count := reg reg_array 263;
     dst_params := example_parameters reg_array 451;
     src_params := example_parameters reg_array 458 |}.

Definition example_header : Header :=
  {| NUM_REGS := 470;
     REG_INDEX_exec := 192;
     QueryMode_None := 0;
     QueryIntr_None := 0;
     CopyMode_Unk2 := 2;
     view := example_view |}.

(** The register file after reset, and a sequence of register writes. *)
Definition reset_regs : list Z := replicate 470 0.

Fixpoint CallMethods (hdr : Header) (memory : Z -> option Z)
    (ToCacheAddr : Z -> Z) (reg_array : list Z) (writes : list MethodCall)
  : Run (list Z) :=
  match writes with
  | [] => ret reg_array
  | w :: ws =>
      reg_array' <- CallMethod hdr memory ToCacheAddr reg_array w ;;
      CallMethods hdr memory ToCacheAddr reg_array' ws
  end.

(** The value of [exec] for the supported copy mode with the given flags. *)
Definition exec_word (src_linear dst_linear enable2d : bool) : Z :=
  2 + (if src_linear then 128 else 0) + (if dst_linear then 256 else 0)
    + (if enable2d then 512 else 0).

(** A memory in which every address is mapped, at a fixed displacement, and
    one in which nothing is mapped. *)
Definition flat_memory (addr : Z) : option Z := Some (addr + 4096).
Definition no_memory (addr : Z) : option Z := None.
Definition id_cache_addr (ptr : Z) : Z := ptr.

(** A request with the supported mode bits, as a view. *)
Definition request (src_linear dst_linear enable2d : Z)
    (source dest spitch dpitch xc yc : Z) (dparams sparams : Parameters) : Regs :=
  {| exec := {| copy_mode := 2; query_mode := 0; query_intr := 0;
                is_src_linear := src_linear; is_dst_linear := dst_linear;
                enable_2d := enable2d; enable_swizzle := 0 |};
     src_address := source; dst_address := dest;
     src_pitch := spitch; dst_pitch := dpitch;
     x_count := xc; y_count := yc;
     dst_params := dparams; src_params := sparams |}.

Definition surface (width height depth block_height : Z) : Parameters :=
  {| size_x := width; size_y := height; size_z := depth;
     pos_x := 0; pos_y := 0; BlockHeight := block_height |}.

(** ** Requests

    The vocabulary of the properties below: which checks a request passes,
    which layouts it names, and the calls a copy is expected to make. *)

Section Requests.

Variable hdr : Header.

(** The checks made before anything else is looked at. *)
Definition checks_pass (regs : Regs) : bool :=
  (enable_swizzle (exec regs) =? 0)
  && (query_mode (exec regs) =? QueryMode_None hdr)
  && (query_intr (exec regs) =? QueryIntr_None hdr)
  && (copy_mode (exec regs) =? CopyMode_Unk2 hdr)
  && (pos_x (dst_params regs) =? 0)
  && (pos_y (dst_params regs) =? 0).

Definition src_linear (regs : Regs) : bool :=
  truthy (is_src_linear (exec regs)).

Definition dst_linear (regs : Regs) : bool :=
  truthy (is_dst_linear (exec regs)).

Definition tiled_to_tiled (regs : Regs) : bool :=
  negb (src_linear regs) && negb (dst_linear regs).

Definition linear_to_linear (regs : Regs) : bool :=
  src_linear regs && dst_linear regs.

(** Exactly one of the two surfaces is linear. *)
Definition mixed (regs : Regs) : bool :=
  xorb (src_linear regs) (dst_linear regs).

End Requests.

(** Addresses are 40-bit device addresses and every other field is a 32-bit
    register. *)
Definition is_gpu_address (a : Z) : Prop := 0 <= a < 2 ^ 40.

Record Parameters_in_range (p : Parameters) : Prop := {
  size_x_range : is_u32 (size_x p);
  size_y_range : is_u32 (size_y p);
  size_z_range : is_u32 (size_z p)
}.

Record Regs_in_range (regs : Regs) : Prop := {
  src_address_range : is_gpu_address (src_address regs);
  dst_address_range : is_gpu_address (dst_address regs);
  src_pitch_range : is_u32 (src_pitch regs);
  dst_pitch_range : is_u32 (dst_pitch regs);
  x_count_range : is_u32 (x_count regs);
  y_count_range : is_u32 (y_count regs);
  dst_params_range : Parameters_in_range (dst_params regs);
  src_params_range : Parameters_in_range (src_params regs)
}.

(** The copy of row [line] of a pitch-linear rectangle, and the copies of all
    its rows, top to bottom. *)
Definition row_copy (regs : Regs) (line : Z) : Event :=
  CopyBlock (dst_address regs + line * dst_pitch regs)
            (src_address regs + line * src_pitch regs)
            (x_count regs).

Definition row_copies (regs : Regs) : list Event :=
  map (row_copy regs) (seqZ 0 (y_count regs)).

(** The row copy as the engine computes it: the row offset is a product of
    two [u32] values, the address a [u64]. *)
Definition row_copy_u32 (regs : Regs) (line : Z) : Event :=
  CopyBlock (u64 (dst_address regs + u32 (line * dst_pitch regs)))
            (u64 (src_address regs + u32 (line * src_pitch regs)))
            (x_count regs).

(** The three memory calls of a tiled-to-linear copy. *)
Definition deswizzle_calls (ToCacheAddr : Z -> Z) (regs : Regs)
    (source_ptr dst_ptr : Z) : list Event :=
  let bytes_per_pixel := src_pitch regs / size_x (src_params regs) in
  [ FlushRegion (ToCacheAddr source_ptr)
      (src_pitch regs * size_y (src_params regs));
    InvalidateRegion (ToCacheAddr dst_ptr)
      (x_count regs * y_count regs * bytes_per_pixel);
    UnswizzleSubrect (x_count regs) (y_count regs) (dst_pitch regs)
      (size_x (src_params regs)) bytes_per_pixel source_ptr dst_ptr
      (BlockHeight (src_params regs))
      (pos_x (src_params regs)) (pos_y (src_params regs)) ].

Definition log_requested : Event := LogWarning "Requested a DMA copy".

(** ** Sample requests *)

(** Four rows of 64 bytes, pitch to pitch. *)
Definition rows_request : Regs :=
  request 1 1 1 4096 8192 64 64 64 4 (surface 0 0 0 0) (surface 0 0 0 0).

(** A buffer of 256 bytes, copied as one block. *)
Definition buffer_request : Regs :=
  request 1 1 0 4096 8192 0 0 256 1 (surface 0 0 0 0) (surface 0 0 0 0).

(** Three rows whose source pitch is 2^31. *)
Definition wide_pitch_request : Regs :=
  request 1 1 1 4096 8192 (2 ^ 31) 64 16 3 (surface 0 0 0 0) (surface 0 0 0 0).

(** A 128 x 128 tiled surface of four bytes per pixel, read back. *)
Definition readback_request : Regs :=
  request 0 1 1 4096 8192 512 512 128 128
    (surface 0 0 0 0) (surface 128 128 1 16).

(** The same with a source surface of width 0. *)
Definition zero_width_request : Regs :=
  request 0 1 1 4096 8192 512 512 128 128
    (surface 0 0 0 0) (surface 0 128 1 16).

(** A tiled source of 65536 x 65536 bytes, read back whole. *)
Definition huge_readback_request : Regs :=
  request 0 1 1 4096 8192 65536 65536 65536 65536
    (surface 0 0 0 0) (surface 65536 65536 1 16).

(** Sixteen rows of 64 bytes, uploaded to a 64 x 16 tiled surface. *)
Definition upload_request : Regs :=
  request 1 0 1 4096 8192 64 0 64 16 (surface 64 16 1 16) (surface 0 0 0 0).

(** One byte uploaded to a tiled surface of 65536 x 65536 bytes. *)
Definition huge_upload_request : Regs :=
  request 1 0 1 4096 8192 1 0 1 1 (surface 65536 65536 1 16) (surface 0 0 0 0).

(** Exactly one tiled surface, with [enable_2d] clear. *)
Definition flat_upload_request : Regs :=
  request 1 0 0 4096 8192 64 0 64 16 (surface 64 16 1 16) (surface 0 0 0 0).

(** Tiled to tiled. *)
Definition tiled_request : Regs :=
  request 0 0 1 4096 8192 0 0 64 16 (surface 64 16 1 16) (surface 64 16 1 16).

(** Tiled to tiled, with [enable_swizzle] set. *)
Definition swizzled_tiled_request : Regs :=
  {| exec := {| copy_mode := 2; query_mode := 0; query_intr := 0;
                is_src_linear := 0; is_dst_linear := 0;
                enable_2d := 1; enable_swizzle := 1 |};
     src_address := 4096; dst_address := 8192;
     src_pitch := 0; dst_pitch := 0; x_count := 64; y_count := 16;
     dst_params := surface 64 16 1 16; src_params := surface 64 16 1 16 |}.

(** The register writes that set up and launch [rows_request]. *)
Definition rows_writes : list MethodCall :=
  [ {| method := 257; argument := 4096 |};
    {| method := 259; argument := 8192 |};
    {| method := 260; argument := 64 |};
    {| method := 261; argument := 64 |};
    {| method := 262; argument := 64 |};
    {| method := 263; argument := 4 |};
    {| method := 192; argument := exec_word true true true |} ].

(** ** Further vocabulary *)

Definition is_lookup (e : Event) : bool :=
  match e with GetPointer _ => true | _ => false end.

(** The register file after a sequence of stores, oldest first. *)
Definition apply_writes (reg_array : list Z) (writes : list MethodCall)
  : list Z :=
  foldl (fun regs w => <[Z.to_nat (method w) := argument w]> regs)
        reg_array writes.

(** A tiled source whose width exceeds the pitch of the read-back. *)
Definition narrow_pitch_request : Regs :=
  request 0 1 1 4096 8192 64 64 16 4 (surface 0 0 0 0) (surface 128 4 1 16).

(** An upload whose source pitch differs from [x_count]. *)
Definition strided_upload_request : Regs :=
  request 1 0 1 4096 8192 128 0 64 16 (surface 64 16 1 16) (surface 0 0 0 0).

(** Register writes that set up [rows_request] without launching it. *)
Definition rows_setup : list MethodCall :=
  [ {| method := 257; argument := 4096 |};
    {| method := 259; argument := 8192 |};
    {| method := 260; argument := 64 |};
    {| method := 261; argument := 64 |};
    {| method := 262; argument := 64 |};
    {| method := 263; argument := 4 |} ].

(** * Properties *)

(** ** Auxiliary facts *)

Lemma truthy_true (z : Z) : truthy z = true <-> z <> 0.
Proof. unfold truthy. destruct (Z.eqb_spec z 0); simpl; split; congruence. Qed.

Lemma truthy_false (z : Z) : truthy z = false <-> z = 0.
Proof. unfold truthy. destruct (Z.eqb_spec z 0); simpl; split; congruence. Qed.

Lemma u32_small (z : Z) : is_u32 z -> u32 z = z.
Proof. intros H. apply Z.mod_small, H. Qed.

Lemma u64_small (z : Z) : is_u64 z -> u64 z = z.
Proof. intros H. apply Z.mod_small, H. Qed.

(** The loop makes one call per line, for consecutive lines. *)
Lemma for_lines_call (f : Z -> Event) (count : nat) (line : Z) :
  for_lines count line (fun l => call (f l))
  = (map f (seqZ line (Z.of_nat count)), Returned tt).
Proof.
  revert line. induction count as [|count IH]; intros line.
  - reflexivity.
  - rewrite Nat2Z.inj_succ, seqZ_cons by lia.
    cbn [for_lines]. rewrite IH.
    replace (Z.pred (Z.succ (Z.of_nat count))) with (Z.of_nat count) by lia.
    reflexivity.
Qed.

Lemma row_copy_u32_exact (regs : Regs) (line : Z) :
  Regs_in_range regs ->
  0 <= line ->
  line * src_pitch regs < 2 ^ 32 ->
  line * dst_pitch regs < 2 ^ 32 ->
  row_copy_u32 regs line = row_copy regs line.
Proof.
  intros [[? ?] [? ?] [? ?] [? ?] _ _ _ _] Hline Hs Hd.
  unfold row_copy_u32, row_copy.
  rewrite !u32_small by (unfold is_u32; nia).
  rewrite !u64_small by (unfold is_u64; nia).
  reflexivity.
Qed.

Lemma row_copies_kind (regs : Regs) (lines : list Z) :
  Forall (fun e => is_notify e = false /\ is_transform e = false
                   /\ is_cache e = false)
         (map (row_copy_u32 regs) lines).
Proof. induction lines; constructor; auto. Qed.

Lemma map_seqZ_ext (f g : Z -> Event) (count : nat) (start : Z) :
  (forall line, start <= line < start + Z.of_nat count -> f line = g line) ->
  map f (seqZ start (Z.of_nat count)) = map g (seqZ start (Z.of_nat count)).
Proof.
  revert start. induction count as [|count IH]; intros start Hfg.
  - reflexivity.
  - rewrite Nat2Z.inj_succ, seqZ_cons by lia.
    replace (Z.pred (Z.succ (Z.of_nat count))) with (Z.of_nat count) by lia.
    cbn [map]. rewrite Hfg by lia. f_equal. apply IH.
    intros line Hline. apply Hfg. lia.
Qed.

Lemma row_copies_no_transform (regs : Regs) (lines : list Z) :
  List.filter is_transform (map (row_copy regs) lines) = [].
Proof. induction lines; auto. Qed.

Ltac run_step :=
  cbn [bind ret call abort ASSERT_MSG UNREACHABLE_MSG LOG_WARNING LOG_ERROR
       get_pointer FlushAndInvalidate negb andb xorb app fst snd calls
       outcome] in *.

Section Proofs.

Variable hdr : Header.
Variable memory : Z -> option Z.
Variable ToCacheAddr : Z -> Z.

Local Abbreviation HandleCopy := (HandleCopy hdr memory ToCacheAddr).
Local Abbreviation CallMethod := (CallMethod hdr memory ToCacheAddr).

(** Unfold the copy, with the loop replaced by the list of its calls. *)
Ltac open_copy regs :=
  unfold HandleCopy; cbv zeta;
  rewrite (for_lines_call (row_copy_u32 regs));
  unfold udiv32, ASSERT.

Ltac case_cond :=
  match goal with
  | |- context [truthy ?z] => destruct (truthy z) eqn:?
  | |- context [?a =? ?b] => destruct (a =? b) eqn:?
  | |- context [memory ?a] => destruct (memory a) eqn:?
  end.

Ltac all_paths := repeat (case_cond; run_step).

Lemma checks_pass_inv regs :
  checks_pass hdr regs = true ->
  (enable_swizzle (exec regs) =? 0) = true /\
  (query_mode (exec regs) =? QueryMode_None hdr) = true /\
  (query_intr (exec regs) =? QueryIntr_None hdr) = true /\
  (copy_mode (exec regs) =? CopyMode_Unk2 hdr) = true /\
  (pos_x (dst_params regs) =? 0) = true /\
  (pos_y (dst_params regs) =? 0) = true.
Proof.
  unfold checks_pass. rewrite !andb_true_iff. tauto.
Qed.

Lemma checks_fail_inv regs :
  checks_pass hdr regs = false <->
  enable_swizzle (exec regs) <> 0 \/
  query_mode (exec regs) <> QueryMode_None hdr \/
  query_intr (exec regs) <> QueryIntr_None hdr \/
  copy_mode (exec regs) <> CopyMode_Unk2 hdr \/
  (pos_x (dst_params regs), pos_y (dst_params regs)) <> (0, 0).
Proof.
  unfold checks_pass. rewrite !andb_false_iff, !Z.eqb_neq.
  assert ((pos_x (dst_params regs), pos_y (dst_params regs)) <> (0, 0)
          <-> pos_x (dst_params regs) <> 0 \/ pos_y (dst_params regs) <> 0)
    as ->.
  { destruct (Z.eq_dec (pos_x (dst_params regs)) 0) as [->|],
             (Z.eq_dec (pos_y (dst_params regs)) 0) as [->|];
      split; intros; try tauto; try congruence;
      intros [=]; tauto. }
  tauto.
Qed.

(** Once the checks pass, the copy starts with the log line and goes on to
    the layout dispatch. *)
Ltac pass_checks H regs :=
  destruct (checks_pass_inv _ H) as (?E & ?E & ?E & ?E & ?E & ?E);
  open_copy regs;
  repeat match goal with
  | E : (_ =? _) = true |- _ => rewrite E; clear E
  end;
  run_step.

Lemma HandleCopy_checks_fail regs :
  checks_pass hdr regs = false ->
  HandleCopy regs = ([log_requested], Aborted AssertionFailed).
Proof.
  unfold checks_pass. intros Hc. open_copy regs.
  destruct (enable_swizzle (exec regs) =? 0); [|reflexivity].
  destruct (query_mode (exec regs) =? QueryMode_None hdr); [|reflexivity].
  destruct (query_intr (exec regs) =? QueryIntr_None hdr); [|reflexivity].
  destruct (copy_mode (exec regs) =? CopyMode_Unk2 hdr); [|reflexivity].
  destruct (pos_x (dst_params regs) =? 0); [|reflexivity].
  destruct (pos_y (dst_params regs) =? 0); [discriminate|reflexivity].
Qed.

(** C1. A request that fails validation -- [enable_swizzle] set, a query
    mode or query interrupt other than None, a copy mode other than the
    supported one, a destination offset other than (0, 0), or exactly one
    tiled surface with [enable_2d] clear -- ends in a failed assertion, and
    none of the calls made before it touches device memory or the cache. *)
Theorem unsupported_request_aborts regs :
  enable_swizzle (exec regs) <> 0 \/
  query_mode (exec regs) <> QueryMode_None hdr \/
  query_intr (exec regs) <> QueryIntr_None hdr \/
  copy_mode (exec regs) <> CopyMode_Unk2 hdr \/
  (pos_x (dst_params regs), pos_y (dst_params regs)) <> (0, 0) \/
  (mixed regs = true /\ enable_2d (exec regs) = 0) ->
  outcome (HandleCopy regs) = Aborted AssertionFailed /\
  Forall (fun e => touches_memory e = false) (calls (HandleCopy regs)).
Proof.
  intros H.
  destruct (checks_pass hdr regs) eqn:Hc.
  - destruct H as [H|[H|[H|[H|[H|[Hm H2]]]]]];
      try (assert (checks_pass hdr regs = false)
             by (apply checks_fail_inv; tauto); congruence).
    unfold mixed, src_linear, dst_linear in Hm.
    pass_checks Hc regs. rewrite H2.
    change (0 =? 1) with false.
    all_paths; try discriminate; split; try reflexivity; repeat constructor.
  - rewrite (HandleCopy_checks_fail _ Hc).
    split; [reflexivity | repeat constructor].
Qed.

(** C3. For a request that passes the checks and is not tiled to tiled, the
    calls start with the log line followed by [OnMemoryWrite], and
    [OnMemoryWrite] does not occur again: the notification is made once,
    before any copy, pointer lookup, flush, invalidation or transform,
    whatever the memory manager answers afterwards. *)
Theorem notification_first_and_once regs :
  checks_pass hdr regs = true ->
  tiled_to_tiled regs = false ->
  exists rest,
    calls (HandleCopy regs) = log_requested :: OnMemoryWrite :: rest /\
    Forall (fun e => is_notify e = false) rest.
Proof.
  intros Hc Ht.
  unfold tiled_to_tiled, src_linear, dst_linear in Ht.
  pass_checks Hc regs.
  all_paths; try discriminate;
    eexists; (split; [reflexivity|]);
    try (eapply Forall_impl; [apply row_copies_kind | intros ? (? & ? & ?); assumption]);
    repeat constructor.
Qed.

(** C4. A request with exactly one tiled surface that reaches the cache
    step -- checks passed, [enable_2d] equal to 1, both pointers resolved,
    the depth (and, for an upload, the pitch) assertions passed and the
    divisor not 0 -- makes exactly two cache calls: first [FlushRegion] on
    the source pointer over the source range, then [InvalidateRegion] on the
    destination pointer over the destination range.  The ranges are those
    the engine computes: for a read-back [src_pitch * size_y] bytes (modulo
    2^32) and [copy_size * bytes_per_pixel] bytes, for an upload
    [src_pitch * y_count] and [size_x * size_y] bytes (both modulo 2^32). *)
Theorem flush_before_invalidate regs source_ptr dst_ptr :
  checks_pass hdr regs = true ->
  mixed regs = true ->
  enable_2d (exec regs) = 1 ->
  memory (src_address regs) = Some source_ptr ->
  memory (dst_address regs) = Some dst_ptr ->
  (dst_linear regs = true ->
   size_z (src_params regs) = 1 ->
   size_x (src_params regs) <> 0 ->
   List.filter is_cache (calls (HandleCopy regs)) =
     [ FlushRegion (ToCacheAddr source_ptr)
         (u32 (src_pitch regs * size_y (src_params regs)));
       InvalidateRegion (ToCacheAddr dst_ptr)
         (u64 (u32 (x_count regs * y_count regs)
               * (src_pitch regs / size_x (src_params regs)))) ]) /\
  (src_linear regs = true ->
   size_z (dst_params regs) = 1 ->
   src_pitch regs = x_count regs ->
   x_count regs <> 0 ->
   List.filter is_cache (calls (HandleCopy regs)) =
     [ FlushRegion (ToCacheAddr source_ptr)
         (u32 (src_pitch regs * y_count regs));
       InvalidateRegion (ToCacheAddr dst_ptr)
         (u32 (size_x (dst_params regs) * size_y (dst_params regs))) ]).
Proof.
  intros Hc Hm H2 Hsp Hdp.
  unfold mixed, src_linear, dst_linear in *.
  pass_checks Hc regs.
  apply Z.eqb_eq in H2. rewrite H2, Hsp, Hdp. run_step.
  destruct (truthy (is_dst_linear (exec regs))),
           (truthy (is_src_linear (exec regs)));
    try discriminate Hm; run_step;
    (split; [intros Hd | intros Hs]); try discriminate.
  - intros Hz Hx. apply Z.eqb_eq in Hz. apply Z.eqb_neq in Hx.
    rewrite Hz, Hx. reflexivity.
  - intros Hz Hp Hx.
    assert (src_pitch regs / x_count regs = 1) as Hbpp
      by (rewrite Hp; apply Z.div_same; assumption).
    apply Z.eqb_eq in Hz, Hp. apply Z.eqb_neq in Hx.
    rewrite Hz, Hp, Hx. run_step. rewrite Hbpp, Z.mul_1_r.
    replace (u32 (u32 (size_x (dst_params regs) * size_y (dst_params regs))))
      with (u32 (size_x (dst_params regs) * size_y (dst_params regs)))
      by (unfold u32; rewrite Z.mod_mod by lia; reflexivity).
    reflexivity.
Qed.

(** C5. When exactly one surface is tiled and the lookup of the source or
    of the destination pointer fails, the copy returns normally after an
    error log line, having made no copy, flush, invalidation or transform
    call; a register write that triggers such a copy returns the updated
    register file, so the engine goes on accepting writes. *)
Theorem unmapped_pointer_skips_copy regs :
  mixed regs = true ->
  (exists addr,
      In (GetPointer addr) (calls (HandleCopy regs)) /\ memory addr = None) ->
  outcome (HandleCopy regs) = Returned tt /\
  Forall (fun e => touches_memory e = false) (calls (HandleCopy regs)) /\
  (exists msg, last (calls (HandleCopy regs)) = Some (LogError msg)) /\
  (forall reg_array method_call,
      method method_call < NUM_REGS hdr ->
      view hdr (<[Z.to_nat (method method_call) := argument method_call]>
                  reg_array) = regs ->
      outcome (CallMethod reg_array method_call) =
        Returned (<[Z.to_nat (method method_call) := argument method_call]>
                    reg_array)).
Proof.
  intros Hm (addr & Hin & Hnone).
  assert (outcome (HandleCopy regs) = Returned tt /\
          Forall (fun e => touches_memory e = false) (calls (HandleCopy regs))
          /\ exists msg, last (calls (HandleCopy regs)) = Some (LogError msg))
    as (Hret & Hcalls & Hlog).
  { unfold mixed, src_linear, dst_linear in Hm.
    revert Hin. open_copy regs.
    all_paths; try discriminate; cbn [In]; intros Hin;
      repeat (destruct Hin as [Hin|Hin]; try discriminate Hin);
      try contradiction; try (injection Hin as <-; congruence);
      (split; [reflexivity|]); (split; [repeat constructor|]);
      eexists; reflexivity. }
  repeat split; auto.
  intros reg_array method_call Hlt Hview.
  unfold CallMethod, ASSERT_MSG.
  apply Z.ltb_lt in Hlt. rewrite Hlt, Hview. run_step.
  destruct (method method_call =? REG_INDEX_exec hdr).
  - destruct (HandleCopy regs) as [t [[]|f]]; [reflexivity|discriminate].
  - reflexivity.
Qed.

(** C6. A tiled-to-tiled request stops after the log line: no byte is
    moved, no cache call is made and [OnMemoryWrite] is not called.  When it
    reaches the layout test, that is when the six checks before it pass, the
    failure it reports is the one that names the tiled-to-tiled gap; a
    request that fails one of those checks has already stopped there, with
    the failed assertion. *)
Theorem tiled_to_tiled_stops regs :
  tiled_to_tiled regs = true ->
  HandleCopy regs =
    ([log_requested],
     Aborted (if checks_pass hdr regs
              then UnreachableCode
                     "Tiled->Tiled DMA transfers are not yet implemented"
              else AssertionFailed)).
Proof.
  intros Ht. unfold tiled_to_tiled, src_linear, dst_linear in Ht.
  apply andb_true_iff in Ht as [Hs Hd].
  apply negb_true_iff in Hs, Hd.
  destruct (checks_pass hdr regs) eqn:Hc.
  - pass_checks Hc regs. rewrite Hs, Hd. run_step. reflexivity.
  - apply (HandleCopy_checks_fail _ Hc).
Qed.

(** C7. A linear-to-linear request that passes the checks with [enable_2d]
    clear makes one [CopyBlock] of [x_count] elements from the source
    address to the destination address and returns; there is no transform,
    flush or invalidation call. *)
Theorem linear_1d_single_copy regs :
  checks_pass hdr regs = true ->
  linear_to_linear regs = true ->
  truthy (enable_2d (exec regs)) = false ->
  calls (HandleCopy regs) =
    [ log_requested; OnMemoryWrite;
      CopyBlock (dst_address regs) (src_address regs) (x_count regs) ] /\
  outcome (HandleCopy regs) = Returned tt.
Proof.
  intros Hc Hl H2.
  unfold linear_to_linear, src_linear, dst_linear in Hl.
  apply andb_true_iff in Hl as [Hs Hd].
  pass_checks Hc regs. rewrite Hs, Hd, H2. run_step. auto.
Qed.

(** The calls of a two-dimensional linear copy, with the addresses as the
    engine computes them. *)
Lemma linear_2d_calls regs :
  checks_pass hdr regs = true ->
  linear_to_linear regs = true ->
  truthy (enable_2d (exec regs)) = true ->
  HandleCopy regs =
    (log_requested :: OnMemoryWrite ::
       map (row_copy_u32 regs) (seqZ 0 (Z.of_nat (Z.to_nat (y_count regs)))),
     Returned tt).
Proof.
  intros Hc Hl H2.
  unfold linear_to_linear, src_linear, dst_linear in Hl.
  apply andb_true_iff in Hl as [Hs Hd].
  pass_checks Hc regs. rewrite Hs, Hd, H2. run_step. reflexivity.
Qed.

(** X14. For a linear-to-linear request that passes the checks with
    [enable_2d] set, whose registers hold 32-bit values and whose addresses
    are 40-bit, and in which no row offset [line * pitch] reaches 2^32: the
    calls after the log line and the notification are the [y_count] row
    copies, in increasing row order, row [line] copying [x_count] elements
    from [src_address + line * src_pitch] to
    [dst_address + line * dst_pitch]; no transform is called. *)
Theorem linear_2d_row_copies regs :
  checks_pass hdr regs = true ->
  linear_to_linear regs = true ->
  truthy (enable_2d (exec regs)) = true ->
  Regs_in_range regs ->
  (forall line, 0 <= line < y_count regs ->
     line * src_pitch regs < 2 ^ 32 /\ line * dst_pitch regs < 2 ^ 32) ->
  calls (HandleCopy regs) = log_requested :: OnMemoryWrite :: row_copies regs /\
  length (row_copies regs) = Z.to_nat (y_count regs) /\
  List.filter is_transform (calls (HandleCopy regs)) = [] /\
  outcome (HandleCopy regs) = Returned tt.
Proof.
  intros Hc Hl H2 Hr Hfit.
  rewrite (linear_2d_calls _ Hc Hl H2). cbn [calls outcome fst snd].
  assert (map (row_copy_u32 regs) (seqZ 0 (Z.of_nat (Z.to_nat (y_count regs))))
          = row_copies regs) as ->.
  { unfold row_copies.
    replace (seqZ 0 (y_count regs))
      with (seqZ 0 (Z.of_nat (Z.to_nat (y_count regs))))
      by (rewrite Z2Nat.id; [reflexivity | apply Hr]).
    apply map_seqZ_ext. intros line Hline.
    rewrite Z2Nat.id in Hline by apply Hr.
    apply row_copy_u32_exact; auto; try lia; apply Hfit; lia. }
  repeat split.
  - unfold row_copies. rewrite length_map. apply length_seqZ.
  - cbn. apply row_copies_no_transform.
Qed.

(** C9. A write to a register within the register count stores the
    argument at that index and leaves every other register as it was; a
    write to any register but [exec] does nothing else, and a write to
    [exec] then runs the copy on the register file that already holds the
    written value.  A write to an index outside the register count is a
    failed assertion: nothing is stored and no call is made. *)
Theorem CallMethod_stores_before_copy reg_array method_call :
  0 <= method method_call ->
  length reg_array = Z.to_nat (NUM_REGS hdr) ->
  let index := Z.to_nat (method method_call) in
  let reg_array' := <[index := argument method_call]> reg_array in
  (method method_call < NUM_REGS hdr ->
     reg_array' !! index = Some (argument method_call) /\
     (forall other, other <> index -> reg_array' !! other = reg_array !! other) /\
     (method method_call <> REG_INDEX_exec hdr ->
        CallMethod reg_array method_call = ([], Returned reg_array')) /\
     (method method_call = REG_INDEX_exec hdr ->
        calls (CallMethod reg_array method_call) =
          calls (HandleCopy (view hdr reg_array')) /\
        outcome (CallMethod reg_array method_call) =
          match outcome (HandleCopy (view hdr reg_array')) with
          | Returned _ => Returned reg_array'
          | Aborted f => Aborted f
          end)) /\
  (NUM_REGS hdr <= method method_call ->
     CallMethod reg_array method_call = ([], Aborted AssertionFailed)).
Proof.
  intros Hpos Hlen index reg_array'. split.
  - intros Hlt. split; [|split; [|split]].
    + apply list_lookup_insert_eq. rewrite Hlen. subst index. lia.
    + intros other Hne. apply list_lookup_insert_ne. congruence.
    + intros Hne. unfold CallMethod, ASSERT_MSG.
      apply Z.ltb_lt in Hlt. apply Z.eqb_neq in Hne.
      rewrite Hlt, Hne. reflexivity.
    + intros Heq. unfold CallMethod, ASSERT_MSG.
      apply Z.ltb_lt in Hlt. apply Z.eqb_eq in Heq.
      rewrite Hlt, Heq. run_step. fold index. fold reg_array'.
      destruct (HandleCopy (view hdr reg_array')) as [t [[]|f]]; cbn;
        rewrite ?app_nil_r; auto.
  - intros Hge. unfold CallMethod, ASSERT_MSG.
    apply Z.ltb_ge in Hge. rewrite Hge. reflexivity.
Qed.

(** ** Further properties of the copy *)

Lemma row_copies_no_lookup regs (lines : list Z) :
  List.filter is_lookup (map (row_copy_u32 regs) lines) = [].
Proof. induction lines; auto. Qed.

Lemma row_copies_u32_no_transform regs (lines : list Z) :
  List.filter is_transform (map (row_copy_u32 regs) lines) = [].
Proof. induction lines; auto. Qed.

Lemma row_copies_size regs (lines : list Z) :
  Forall (fun e => exists dest source, e = CopyBlock dest source (x_count regs))
         (map (row_copy_u32 regs) lines).
Proof. induction lines; constructor; eauto. Qed.

Lemma linear_1d_calls regs :
  checks_pass hdr regs = true ->
  linear_to_linear regs = true ->
  truthy (enable_2d (exec regs)) = false ->
  calls (HandleCopy regs) =
    [ log_requested; OnMemoryWrite;
      CopyBlock (dst_address regs) (src_address regs) (x_count regs) ] /\
  outcome (HandleCopy regs) = Returned tt.
Proof.
  intros Hc Hl H2.
  unfold linear_to_linear, src_linear, dst_linear in Hl.
  apply andb_true_iff in Hl as [Hs Hd].
  pass_checks Hc regs. rewrite Hs, Hd, H2. run_step. auto.
Qed.

(** X1. The calls of a linear-to-tiled copy, in machine arithmetic: with
    [src_pitch = x_count <> 0] and destination depth 1, the copy flushes
    [src_pitch * y_count] bytes (modulo 2^32) at the source pointer,
    invalidates [size_x * size_y] bytes (modulo 2^32) at the destination
    pointer and then swizzles with one byte per pixel. *)
Theorem linear_to_tiled_calls regs source_ptr dst_ptr :
  checks_pass hdr regs = true ->
  src_linear regs = true ->
  dst_linear regs = false ->
  enable_2d (exec regs) = 1 ->
  memory (src_address regs) = Some source_ptr ->
  memory (dst_address regs) = Some dst_ptr ->
  size_z (dst_params regs) = 1 ->
  src_pitch regs = x_count regs ->
  x_count regs <> 0 ->
  HandleCopy regs =
    ([ log_requested; OnMemoryWrite;
       GetPointer (src_address regs); GetPointer (dst_address regs);
       FlushRegion (ToCacheAddr source_ptr) (u32 (src_pitch regs * y_count regs));
       InvalidateRegion (ToCacheAddr dst_ptr)
         (u32 (size_x (dst_params regs) * size_y (dst_params regs)));
       SwizzleSubrect (x_count regs) (y_count regs) (src_pitch regs)
         (size_x (dst_params regs)) 1 dst_ptr source_ptr
         (BlockHeight (dst_params regs)) ],
     Returned tt).
Proof.
  intros Hc Hs Hd H2 Hsp Hdp Hz Hp Hx.
  assert (src_pitch regs / x_count regs = 1) as Hbpp
    by (rewrite Hp; apply Z.div_same; assumption).
  unfold src_linear, dst_linear in *.
  pass_checks Hc regs.
  apply Z.eqb_neq in Hx. apply Z.eqb_eq in H2, Hz, Hp.
  rewrite Hs, Hd, H2, Hsp, Hdp, Hz, Hp, Hx. run_step.
  rewrite Hbpp, Z.mul_1_r.
  replace (u32 (u32 (size_x (dst_params regs) * size_y (dst_params regs))))
    with (u32 (size_x (dst_params regs) * size_y (dst_params regs)))
    by (unfold u32; rewrite Z.mod_mod by lia; reflexivity).
  reflexivity.
Qed.

Lemma tiled_to_linear_calls_any regs source_ptr dst_ptr :
  checks_pass hdr regs = true ->
  dst_linear regs = true ->
  src_linear regs = false ->
  enable_2d (exec regs) = 1 ->
  memory (src_address regs) = Some source_ptr ->
  memory (dst_address regs) = Some dst_ptr ->
  size_z (src_params regs) = 1 ->
  size_x (src_params regs) <> 0 ->
  calls (HandleCopy regs) =
    [ log_requested; OnMemoryWrite;
      GetPointer (src_address regs); GetPointer (dst_address regs);
      FlushRegion (ToCacheAddr source_ptr)
        (u32 (src_pitch regs * size_y (src_params regs)));
      InvalidateRegion (ToCacheAddr dst_ptr)
        (u64 (u32 (x_count regs * y_count regs)
              * (src_pitch regs / size_x (src_params regs))));
      UnswizzleSubrect (x_count regs) (y_count regs) (dst_pitch regs)
        (size_x (src_params regs))
        (src_pitch regs / size_x (src_params regs)) source_ptr dst_ptr
        (BlockHeight (src_params regs))
        (pos_x (src_params regs)) (pos_y (src_params regs)) ] /\
  outcome (HandleCopy regs) = Returned tt.
Proof.
  intros Hc Hd Hs H2 Hsp Hdp Hz Hx.
  unfold src_linear, dst_linear in *.
  pass_checks Hc regs.
  apply Z.eqb_neq in Hx. apply Z.eqb_eq in H2, Hz.
  rewrite Hd, Hs, H2, Hsp, Hdp, Hz, Hx. run_step.
  auto.
Qed.

(** X2. The calls of a tiled-to-linear copy, in machine arithmetic: with
    source depth 1, a 32-bit source pitch and a positive source width, the
    flush covers [src_pitch * size_y] bytes modulo 2^32 and the invalidation
    [((x_count * y_count) mod 2^32) * bytes_per_pixel] bytes, where
    [bytes_per_pixel] is [src_pitch / size_x] rounded down; this last
    product is below 2^64, so widening it loses nothing.  The unswizzle call
    follows. *)
Theorem tiled_to_linear_machine_calls regs source_ptr dst_ptr :
  checks_pass hdr regs = true ->
  dst_linear regs = true ->
  src_linear regs = false ->
  enable_2d (exec regs) = 1 ->
  memory (src_address regs) = Some source_ptr ->
  memory (dst_address regs) = Some dst_ptr ->
  size_z (src_params regs) = 1 ->
  is_u32 (src_pitch regs) ->
  0 < size_x (src_params regs) ->
  HandleCopy regs =
    ([ log_requested; OnMemoryWrite;
       GetPointer (src_address regs); GetPointer (dst_address regs);
       FlushRegion (ToCacheAddr source_ptr)
         (u32 (src_pitch regs * size_y (src_params regs)));
       InvalidateRegion (ToCacheAddr dst_ptr)
         (u32 (x_count regs * y_count regs)
          * (src_pitch regs / size_x (src_params regs)));
       UnswizzleSubrect (x_count regs) (y_count regs) (dst_pitch regs)
         (size_x (src_params regs))
         (src_pitch regs / size_x (src_params regs)) source_ptr dst_ptr
         (BlockHeight (src_params regs))
         (pos_x (src_params regs)) (pos_y (src_params regs)) ],
     Returned tt) /\
  u32 (x_count regs * y_count regs)
    * (src_pitch regs / size_x (src_params regs)) < 2 ^ 64.
Proof.
  intros Hc Hd Hs H2 Hsp Hdp Hz [Hp0 Hp1] Hx.
  assert (0 <= u32 (x_count regs * y_count regs) < 2 ^ 32) as Hsize
    by (apply Z.mod_pos_bound; lia).
  assert (0 <= src_pitch regs / size_x (src_params regs) < 2 ^ 32) as Hbpp.
  { split; [apply Z.div_pos; lia|].
    apply Z.div_lt_upper_bound; [lia|]. nia. }
  split; [|nia].
  unfold src_linear, dst_linear in *.
  pass_checks Hc regs.
  assert ((size_x (src_params regs) =? 0) = false) as Hx0
    by (apply Z.eqb_neq; lia).
  apply Z.eqb_eq in H2, Hz.
  rewrite Hd, Hs, H2, Hsp, Hdp, Hz, Hx0. run_step.
  rewrite u64_small by (unfold is_u64; nia).
  reflexivity.
Qed.

(** X3. A tiled-to-linear copy whose source pitch is below the source width
    has zero bytes per pixel: it invalidates 0 bytes and calls the unswizzle
    with [bytes_per_pixel = 0]. *)
Theorem narrow_pitch_zero_bytes_per_pixel regs source_ptr dst_ptr :
  checks_pass hdr regs = true ->
  dst_linear regs = true ->
  src_linear regs = false ->
  enable_2d (exec regs) = 1 ->
  memory (src_address regs) = Some source_ptr ->
  memory (dst_address regs) = Some dst_ptr ->
  size_z (src_params regs) = 1 ->
  0 <= src_pitch regs < size_x (src_params regs) ->
  List.filter is_invalidate (calls (HandleCopy regs)) =
    [ InvalidateRegion (ToCacheAddr dst_ptr) 0 ] /\
  List.filter is_transform (calls (HandleCopy regs)) =
    [ UnswizzleSubrect (x_count regs) (y_count regs) (dst_pitch regs)
        (size_x (src_params regs)) 0 source_ptr dst_ptr
        (BlockHeight (src_params regs))
        (pos_x (src_params regs)) (pos_y (src_params regs)) ] /\
  outcome (HandleCopy regs) = Returned tt.
Proof.
  intros Hc Hd Hs H2 Hsp Hdp Hz Hnarrow.
  destruct (tiled_to_linear_calls_any regs source_ptr dst_ptr) as [-> ->];
    auto; [lia|].
  rewrite Z.div_small by assumption. rewrite Z.mul_0_r.
  cbn. auto.
Qed.

(** X4. On the mixed path with both pointers resolved, a source depth other
    than 1 (tiled to linear), a destination depth other than 1 or a source
    pitch other than [x_count] (linear to tiled) ends the copy in a failed
    assertion right after the two pointer lookups: nothing is flushed,
    invalidated or transformed. *)
Theorem mixed_request_rejected regs source_ptr dst_ptr :
  checks_pass hdr regs = true ->
  mixed regs = true ->
  enable_2d (exec regs) = 1 ->
  memory (src_address regs) = Some source_ptr ->
  memory (dst_address regs) = Some dst_ptr ->
  (dst_linear regs = true /\ size_z (src_params regs) <> 1) \/
  (src_linear regs = true /\
   (size_z (dst_params regs) <> 1 \/ src_pitch regs <> x_count regs)) ->
  HandleCopy regs =
    ([ log_requested; OnMemoryWrite;
       GetPointer (src_address regs); GetPointer (dst_address regs) ],
     Aborted AssertionFailed).
Proof.
  intros Hc Hm H2 Hsp Hdp Hbad.
  unfold mixed, src_linear, dst_linear in *.
  pass_checks Hc regs.
  apply Z.eqb_eq in H2. rewrite H2, Hsp, Hdp. run_step.
  destruct (truthy (is_dst_linear (exec regs))),
           (truthy (is_src_linear (exec regs)));
    try discriminate Hm; run_step.
  - destruct Hbad as [[_ Hz]|[[=] _]].
    apply Z.eqb_neq in Hz. rewrite Hz. reflexivity.
  - destruct Hbad as [[[=] _]|[_ [Hz|Hp]]].
    + apply Z.eqb_neq in Hz. rewrite Hz. reflexivity.
    + apply Z.eqb_neq in Hp. rewrite Hp.
      destruct (size_z (dst_params regs) =? 1); reflexivity.
Qed.

(** X5. Whatever the addresses and pitches, also when row offsets wrap, a
    two-dimensional linear copy makes exactly [y_count] [CopyBlock] calls of
    [x_count] elements each after the notification, and returns; with
    [y_count = 0] it makes none. *)
Theorem linear_2d_copy_count regs :
  checks_pass hdr regs = true ->
  linear_to_linear regs = true ->
  truthy (enable_2d (exec regs)) = true ->
  exists copies,
    calls (HandleCopy regs) = log_requested :: OnMemoryWrite :: copies /\
    length copies = Z.to_nat (y_count regs) /\
    Forall (fun e => exists dest source,
                e = CopyBlock dest source (x_count regs)) copies /\
    outcome (HandleCopy regs) = Returned tt.
Proof.
  intros Hc Hl H2. rewrite (linear_2d_calls _ Hc Hl H2).
  eexists. split; [reflexivity|]. split; [|split].
  - rewrite length_map, length_seqZ. apply Nat2Z.id.
  - apply row_copies_size.
  - reflexivity.
Qed.

(** X6. On the mixed path both pointers are looked up before either is
    examined.  An unmapped source is reported as such whether or not the
    destination is mapped; an unmapped destination is reported only when the
    source is mapped.  Either way the copy returns after the error line. *)
Theorem unmapped_pointer_report regs :
  checks_pass hdr regs = true ->
  mixed regs = true ->
  enable_2d (exec regs) = 1 ->
  (memory (src_address regs) = None ->
   HandleCopy regs =
     ([ log_requested; OnMemoryWrite;
        GetPointer (src_address regs); GetPointer (dst_address regs);
        LogError "source_ptr is invalid" ], Returned tt)) /\
  (memory (src_address regs) <> None ->
   memory (dst_address regs) = None ->
   HandleCopy regs =
     ([ log_requested; OnMemoryWrite;
        GetPointer (src_address regs); GetPointer (dst_address regs);
        LogError "dst_ptr is invalid" ], Returned tt)).
Proof.
  intros Hc Hm H2.
  unfold mixed, src_linear, dst_linear in *.
  pass_checks Hc regs.
  apply Z.eqb_eq in H2. rewrite H2.
  destruct (truthy (is_dst_linear (exec regs))),
           (truthy (is_src_linear (exec regs)));
    try discriminate Hm; run_step;
    (split; [intros -> | intros Hs ->]); try reflexivity;
    destruct (memory (src_address regs)); try congruence; reflexivity.
Qed.

(** X7. Pointers are looked up only by a request that passes the checks,
    has exactly one tiled surface and has [enable_2d] equal to 1; such a
    request looks up the source and then the destination, once each. *)
Theorem pointer_lookups regs :
  List.filter is_lookup (calls (HandleCopy regs)) =
    if checks_pass hdr regs && mixed regs && (enable_2d (exec regs) =? 1)
    then [ GetPointer (src_address regs); GetPointer (dst_address regs) ]
    else [].
Proof.
  destruct (checks_pass hdr regs) eqn:Hc.
  - unfold mixed, src_linear, dst_linear.
    pass_checks Hc regs.
    all_paths; cbn; rewrite ?row_copies_no_lookup; reflexivity.
  - rewrite (HandleCopy_checks_fail _ Hc). reflexivity.
Qed.

(** X8. A copy makes at most one transform call.  When it makes one, that
    call is the last one, it directly follows a [FlushRegion] and an
    [InvalidateRegion] in this order, nothing before them touches memory or
    the cache, and the copy returns. *)
Theorem transform_follows_flush_and_invalidate regs :
  List.filter is_transform (calls (HandleCopy regs)) = [] \/
  exists before flushed flush_size invalidated invalidate_size transform,
    calls (HandleCopy regs) =
      before ++ [ FlushRegion flushed flush_size;
                  InvalidateRegion invalidated invalidate_size;
                  transform ] /\
    is_transform transform = true /\
    Forall (fun e => touches_memory e = false) before /\
    outcome (HandleCopy regs) = Returned tt.
Proof.
  open_copy regs.
  all_paths; cbn [List.filter is_transform];
    rewrite ?row_copies_u32_no_transform; auto.
  all: right.
  all: exists [ log_requested; OnMemoryWrite;
                GetPointer (src_address regs); GetPointer (dst_address regs) ].
  all: do 5 eexists.
  all: split; [reflexivity|].
  all: split; [reflexivity|].
  all: split; [repeat constructor | reflexivity].
Qed.

(** X9. A linear-to-linear request returns exactly when the six checks
    pass -- it needs neither [enable_2d] nor any surface description -- and
    it never looks up a pointer, flushes, invalidates or transforms. *)
Theorem linear_request_outcome regs :
  linear_to_linear regs = true ->
  outcome (HandleCopy regs) =
    (if checks_pass hdr regs then Returned tt else Aborted AssertionFailed) /\
  Forall (fun e => is_lookup e = false /\ is_cache e = false
                   /\ is_transform e = false)
         (calls (HandleCopy regs)).
Proof.
  intros Hl. destruct (checks_pass hdr regs) eqn:Hc.
  - destruct (truthy (enable_2d (exec regs))) eqn:H2.
    + rewrite (linear_2d_calls _ Hc Hl H2). split; [reflexivity|].
      do 2 (constructor; [auto|]).
      induction (seqZ 0 (Z.of_nat (Z.to_nat (y_count regs))));
        constructor; auto.
    + destruct (linear_1d_calls _ Hc Hl H2) as [-> ->].
      split; [reflexivity | repeat constructor].
  - rewrite (HandleCopy_checks_fail _ Hc).
    split; [reflexivity | repeat constructor].
Qed.

Ltac eqb_props :=
  repeat match goal with
  | H : (_ =? _) = true |- _ => apply Z.eqb_eq in H
  | H : (_ =? _) = false |- _ => apply Z.eqb_neq in H
  end.

(** X10. The copy divides by zero in exactly two situations, both on the
    mixed path after the checks, the [enable_2d] assertion and both pointer
    lookups have succeeded: tiled to linear with source depth 1 and source
    width 0, and linear to tiled with destination depth 1 and
    [src_pitch = x_count = 0]. *)
Theorem division_by_zero_iff regs :
  outcome (HandleCopy regs) = Aborted DivisionByZero <->
  checks_pass hdr regs = true /\
  enable_2d (exec regs) = 1 /\
  memory (src_address regs) <> None /\
  memory (dst_address regs) <> None /\
  ((dst_linear regs = true /\ src_linear regs = false /\
    size_z (src_params regs) = 1 /\ size_x (src_params regs) = 0) \/
   (src_linear regs = true /\ dst_linear regs = false /\
    size_z (dst_params regs) = 1 /\
    src_pitch regs = 0 /\ x_count regs = 0)).
Proof.
  destruct (checks_pass hdr regs) eqn:Hc.
  - unfold src_linear, dst_linear.
    pass_checks Hc regs.
    all_paths; eqb_props;
      (split;
       [ intros Hout; try discriminate Hout;
         (split; [reflexivity|]); (split; [assumption|]);
         (split; [discriminate|]); (split; [discriminate|]);
         ((left; repeat split; congruence) || (right; repeat split; congruence))
       | intros (_ & ? & ? & ? & [(? & ? & ? & ?)|(? & ? & ? & ? & ?)]);
         try reflexivity; exfalso; congruence ]).
  - rewrite (HandleCopy_checks_fail _ Hc).
    split; [discriminate | intros (? & _); discriminate].
Qed.

(** X11. The failure that names the tiled-to-tiled gap is reported exactly
    for the tiled-to-tiled requests that pass the six checks. *)
Theorem unreachable_iff regs msg :
  outcome (HandleCopy regs) = Aborted (UnreachableCode msg) <->
  checks_pass hdr regs = true /\
  tiled_to_tiled regs = true /\
  msg = "Tiled->Tiled DMA transfers are not yet implemented"%string.
Proof.
  destruct (checks_pass hdr regs) eqn:Hc.
  - unfold tiled_to_tiled, src_linear, dst_linear.
    pass_checks Hc regs.
    all_paths;
      (split;
       [ intros Hout; try discriminate Hout;
         injection Hout as <-; auto
       | intros (_ & ? & ->); try reflexivity; discriminate ]).
  - rewrite (HandleCopy_checks_fail _ Hc).
    split; [discriminate | intros (? & _); discriminate].
Qed.

(** ** Sequences of register writes *)

Lemma bind_ret_r {A} (m : Run A) : bind m ret = m.
Proof. destruct m as [t [a|f]]; cbn; rewrite ?app_nil_r; reflexivity. Qed.

Lemma CallMethod_store_only reg_array w :
  method w < NUM_REGS hdr ->
  method w <> REG_INDEX_exec hdr ->
  CallMethod reg_array w =
    ([], Returned (<[Z.to_nat (method w) := argument w]> reg_array)).
Proof.
  intros Hlt Hne. unfold CallMethod, ASSERT_MSG.
  apply Z.ltb_lt in Hlt. apply Z.eqb_neq in Hne.
  rewrite Hlt, Hne. reflexivity.
Qed.

(** X12. Writes to registers other than [exec], within the register count,
    make no call and accumulate in the register file, a later write to a
    register replacing an earlier one; a write that follows them -- the one
    that launches the copy -- behaves as a single write on the accumulated
    register file. *)
Theorem setup_then_launch writes : forall reg_array,
  Forall (fun w => method w < NUM_REGS hdr /\ method w <> REG_INDEX_exec hdr)
         writes ->
  CallMethods hdr memory ToCacheAddr reg_array writes =
    ([], Returned (apply_writes reg_array writes)) /\
  forall launch,
    CallMethods hdr memory ToCacheAddr reg_array (writes ++ [launch]) =
      CallMethod (apply_writes reg_array writes) launch.
Proof.
  induction writes as [|w ws IH]; intros reg_array Hws.
  - split; [reflexivity|]. intros launch. cbn [app CallMethods apply_writes foldl].
    apply bind_ret_r.
  - inversion Hws as [|? ? [Hlt Hne] Hrest]; subst.
    destruct (IH (<[Z.to_nat (method w) := argument w]> reg_array) Hrest)
      as [Hsetup Hlaunch].
    split.
    + cbn [CallMethods]. rewrite (CallMethod_store_only _ _ Hlt Hne).
      cbn [bind]. rewrite Hsetup. reflexivity.
    + intros launch. cbn [app CallMethods].
      rewrite (CallMethod_store_only _ _ Hlt Hne). cbn [bind].
      rewrite Hlaunch. cbn [apply_writes foldl].
      destruct (CallMethod _ launch) as [t r]. reflexivity.
Qed.

End Proofs.

(** ** The properties on the sample requests *)

Ltac sample_in_range := repeat constructor; cbv; congruence.

Lemma unsupported_request_aborts_witness :
  mixed flat_upload_request = true /\
  enable_2d (exec flat_upload_request) = 0 /\
  outcome (HandleCopy example_header flat_memory id_cache_addr
             flat_upload_request) = Aborted AssertionFailed /\
  Forall (fun e => touches_memory e = false)
    (calls (HandleCopy example_header flat_memory id_cache_addr
              flat_upload_request)).
Proof.
  split; [reflexivity|]. split; [reflexivity|].
  apply (unsupported_request_aborts example_header flat_memory id_cache_addr
           flat_upload_request).
  do 5 right. split; reflexivity.
Defined.

(** C2. The row offset [line * pitch] is computed in 32 bits before it is
    added to the 64-bit address.  On three rows with a source pitch of 2^31
    the offset of row 2 is 2^32, the engine computes it as 0 and copies the
    third row from the address of the first, where a row-by-row copy reads
    it from [src_address + 2 * src_pitch]. *)
Lemma linear_2d_row_offset_wraps :
  checks_pass example_header wide_pitch_request = true /\
  linear_to_linear wide_pitch_request = true /\
  truthy (enable_2d (exec wide_pitch_request)) = true /\
  Regs_in_range wide_pitch_request /\
  List.filter is_copy
    (calls (HandleCopy example_header flat_memory id_cache_addr
              wide_pitch_request))
  = [ CopyBlock 8192 4096 16;
      CopyBlock 8256 (4096 + 2 ^ 31) 16;
      CopyBlock 8320 4096 16 ] /\
  row_copies wide_pitch_request
  = [ CopyBlock 8192 4096 16;
      CopyBlock 8256 (4096 + 2 ^ 31) 16;
      CopyBlock 8320 (4096 + 2 ^ 32) 16 ] /\
  List.filter is_copy
    (calls (HandleCopy example_header flat_memory id_cache_addr
              wide_pitch_request))
  <> row_copies wide_pitch_request.
Proof.
  repeat split; try reflexivity; cbv; congruence.
Qed.

Lemma linear_2d_row_copies_witness :
  calls (HandleCopy example_header flat_memory id_cache_addr rows_request)
  = [ log_requested; OnMemoryWrite;
      CopyBlock 8192 4096 64; CopyBlock 8256 4160 64;
      CopyBlock 8320 4224 64; CopyBlock 8384 4288 64 ] /\
  length (row_copies rows_request) = 4%nat /\
  List.filter is_transform
    (calls (HandleCopy example_header flat_memory id_cache_addr rows_request))
  = [] /\
  outcome (HandleCopy example_header flat_memory id_cache_addr rows_request)
  = Returned tt.
Proof.
  apply (linear_2d_row_copies example_header flat_memory id_cache_addr
           rows_request); try reflexivity.
  - sample_in_range.
  - cbn. intros line Hline. lia.
Defined.

Lemma notification_first_and_once_witness :
  exists rest,
    calls (HandleCopy example_header no_memory id_cache_addr readback_request)
    = log_requested :: OnMemoryWrite :: rest /\
    Forall (fun e => is_notify e = false) rest.
Proof.
  apply (notification_first_and_once example_header no_memory id_cache_addr
           readback_request); reflexivity.
Defined.

Lemma flush_before_invalidate_witness :
  List.filter is_cache
    (calls (HandleCopy example_header flat_memory id_cache_addr
              readback_request))
  = [ FlushRegion 8192 65536; InvalidateRegion 12288 65536 ] /\
  List.filter is_cache
    (calls (HandleCopy example_header flat_memory id_cache_addr
              upload_request))
  = [ FlushRegion 8192 1024; InvalidateRegion 12288 1024 ].
Proof.
  destruct (flush_before_invalidate example_header flat_memory id_cache_addr
              readback_request 8192 12288
              eq_refl eq_refl eq_refl eq_refl eq_refl) as [Hreadback _].
  destruct (flush_before_invalidate example_header flat_memory id_cache_addr
              upload_request 8192 12288
              eq_refl eq_refl eq_refl eq_refl eq_refl) as [_ Hupload].
  split.
  - apply Hreadback; [reflexivity | reflexivity | discriminate].
  - apply Hupload; [reflexivity | reflexivity | reflexivity | discriminate].
Defined.

Lemma unmapped_pointer_skips_copy_witness :
  outcome (HandleCopy example_header no_memory id_cache_addr readback_request)
  = Returned tt /\
  calls (HandleCopy example_header no_memory id_cache_addr readback_request)
  = [ log_requested; OnMemoryWrite; GetPointer 4096; GetPointer 8192;
      LogError "source_ptr is invalid" ].
Proof.
  split; [|reflexivity].
  apply (unmapped_pointer_skips_copy example_header no_memory id_cache_addr
           readback_request).
  - reflexivity.
  - exists 4096. split; [|reflexivity]. cbn. auto.
Defined.

Lemma tiled_to_tiled_stops_witness :
  HandleCopy example_header flat_memory id_cache_addr tiled_request
  = ([log_requested],
     Aborted (UnreachableCode
                "Tiled->Tiled DMA transfers are not yet implemented")) /\
  HandleCopy example_header flat_memory id_cache_addr swizzled_tiled_request
  = ([log_requested], Aborted AssertionFailed).
Proof.
  split.
  - apply (tiled_to_tiled_stops example_header flat_memory id_cache_addr
             tiled_request). reflexivity.
  - apply (tiled_to_tiled_stops example_header flat_memory id_cache_addr
             swizzled_tiled_request). reflexivity.
Defined.

Lemma linear_1d_single_copy_witness :
  calls (HandleCopy example_header flat_memory id_cache_addr buffer_request)
  = [ log_requested; OnMemoryWrite; CopyBlock 8192 4096 256 ] /\
  outcome (HandleCopy example_header flat_memory id_cache_addr buffer_request)
  = Returned tt.
Proof.
  apply (linear_1d_single_copy example_header flat_memory id_cache_addr
           buffer_request); reflexivity.
Defined.

(** C8. The read-back divides by the source width without checking it and
    computes its byte counts in 32 bits.  On a source surface of width 0 the
    quotient [src_pitch / size_x] has no value and the copy stops before any
    flush; on a surface of 65536 x 65536 bytes both byte counts are 2^32 and
    the engine flushes and invalidates 0 bytes, where the source range is
    [src_pitch * size_y] bytes and the destination range
    [x_count * y_count * bytes_per_pixel] bytes. *)
Lemma tiled_to_linear_zero_width_and_wrap :
  (checks_pass example_header zero_width_request = true /\
   dst_linear zero_width_request = true /\
   src_linear zero_width_request = false /\
   enable_2d (exec zero_width_request) = 1 /\
   size_z (src_params zero_width_request) = 1 /\
   Regs_in_range zero_width_request /\
   flat_memory (src_address zero_width_request) = Some 8192 /\
   flat_memory (dst_address zero_width_request) = Some 12288 /\
   HandleCopy example_header flat_memory id_cache_addr zero_width_request
   = ([ log_requested; OnMemoryWrite; GetPointer 4096; GetPointer 8192 ],
      Aborted DivisionByZero) /\
   List.filter touches_memory
     (calls (HandleCopy example_header flat_memory id_cache_addr
               zero_width_request))
   <> deswizzle_calls id_cache_addr zero_width_request 8192 12288) /\
  (checks_pass example_header huge_readback_request = true /\
   dst_linear huge_readback_request = true /\
   src_linear huge_readback_request = false /\
   enable_2d (exec huge_readback_request) = 1 /\
   size_z (src_params huge_readback_request) = 1 /\
   Regs_in_range huge_readback_request /\
   flat_memory (src_address huge_readback_request) = Some 8192 /\
   flat_memory (dst_address huge_readback_request) = Some 12288 /\
   List.filter touches_memory
     (calls (HandleCopy example_header flat_memory id_cache_addr
               huge_readback_request))
   = [ FlushRegion 8192 0; InvalidateRegion 12288 0;
       UnswizzleSubrect 65536 65536 65536 65536 1 8192 12288 16 0 0 ] /\
   deswizzle_calls id_cache_addr huge_readback_request 8192 12288
   = [ FlushRegion 8192 (2 ^ 32); InvalidateRegion 12288 (2 ^ 32);
       UnswizzleSubrect 65536 65536 65536 65536 1 8192 12288 16 0 0 ] /\
   List.filter touches_memory
     (calls (HandleCopy example_header flat_memory id_cache_addr
               huge_readback_request))
   <> deswizzle_calls id_cache_addr huge_readback_request 8192 12288).
Proof.
  repeat split; try reflexivity; cbv; congruence.
Qed.

Lemma CallMethod_stores_before_copy_witness :
  CallMethod example_header flat_memory id_cache_addr reset_regs
    {| method := 262; argument := 64 |}
  = ([], Returned (<[262%nat := 64]> reset_regs)).
Proof.
  destruct (CallMethod_stores_before_copy example_header flat_memory
              id_cache_addr reset_regs {| method := 262; argument := 64 |})
    as [Hin _]; [cbn; lia | reflexivity |].
  destruct Hin as (_ & _ & Hother & _); [reflexivity|].
  apply Hother. discriminate.
Defined.

(** C10. The size of the destination range of an upload is computed in 32
    bits before it is widened.  With [src_pitch = x_count = 1] (one byte per
    pixel) and a destination surface of 65536 x 65536 bytes the range is
    [size_x * size_y = 2^32] bytes and the engine invalidates 0 bytes. *)
Lemma linear_to_tiled_invalidate_wraps :
  checks_pass example_header huge_upload_request = true /\
  src_linear huge_upload_request = true /\
  dst_linear huge_upload_request = false /\
  enable_2d (exec huge_upload_request) = 1 /\
  Regs_in_range huge_upload_request /\
  flat_memory (src_address huge_upload_request) = Some 8192 /\
  flat_memory (dst_address huge_upload_request) = Some 12288 /\
  src_pitch huge_upload_request = x_count huge_upload_request /\
  0 < x_count huge_upload_request /\
  size_z (dst_params huge_upload_request) = 1 /\
  size_x (dst_params huge_upload_request)
    * size_y (dst_params huge_upload_request) = 2 ^ 32 /\
  List.filter touches_memory
    (calls (HandleCopy example_header flat_memory id_cache_addr
              huge_upload_request))
  = [ FlushRegion 8192 1; InvalidateRegion 12288 0;
      SwizzleSubrect 1 1 1 65536 1 12288 8192 16 ] /\
  List.filter is_invalidate
    (calls (HandleCopy example_header flat_memory id_cache_addr
              huge_upload_request))
  <> [ InvalidateRegion 12288
         (size_x (dst_params huge_upload_request)
          * size_y (dst_params huge_upload_request)) ].
Proof.
  repeat split; try reflexivity; cbv; congruence.
Qed.

(** Register writes that set up and launch a copy of four rows of 64 bytes:
    four row copies and nothing else. *)
Example rows_writes_copies :
  calls (CallMethods example_header flat_memory id_cache_addr reset_regs
           rows_writes)
  = [ log_requested; OnMemoryWrite;
      CopyBlock 8192 4096 64; CopyBlock 8256 4160 64;
      CopyBlock 8320 4224 64; CopyBlock 8384 4288 64 ].
Proof. vm_compute. reflexivity. Qed.

(** ** The further properties on the sample requests *)

Lemma linear_to_tiled_calls_witness :
  HandleCopy example_header flat_memory id_cache_addr upload_request
  = ([ log_requested; OnMemoryWrite; GetPointer 4096; GetPointer 8192;
       FlushRegion 8192 1024; InvalidateRegion 12288 1024;
       SwizzleSubrect 64 16 64 64 1 12288 8192 16 ],
     Returned tt).
Proof.
  apply (linear_to_tiled_calls example_header flat_memory id_cache_addr
           upload_request 8192 12288); try reflexivity.
  discriminate.
Defined.

Lemma tiled_to_linear_machine_calls_witness :
  HandleCopy example_header flat_memory id_cache_addr readback_request
  = ([ log_requested; OnMemoryWrite; GetPointer 4096; GetPointer 8192;
       FlushRegion 8192 65536; InvalidateRegion 12288 65536;
       UnswizzleSubrect 128 128 512 128 4 8192 12288 16 0 0 ],
     Returned tt).
Proof.
  assert (is_u32 (src_pitch readback_request)) as Hpitch
    by (split; [discriminate | reflexivity]).
  destruct (tiled_to_linear_machine_calls example_header flat_memory
              id_cache_addr readback_request 8192 12288
              eq_refl eq_refl eq_refl eq_refl eq_refl eq_refl eq_refl
              Hpitch eq_refl) as [Hcalls _].
  exact Hcalls.
Defined.

Lemma narrow_pitch_zero_bytes_per_pixel_witness :
  List.filter is_invalidate
    (calls (HandleCopy example_header flat_memory id_cache_addr
              narrow_pitch_request))
  = [ InvalidateRegion 12288 0 ] /\
  List.filter is_transform
    (calls (HandleCopy example_header flat_memory id_cache_addr
              narrow_pitch_request))
  = [ UnswizzleSubrect 16 4 64 128 0 8192 12288 16 0 0 ] /\
  outcome (HandleCopy example_header flat_memory id_cache_addr
             narrow_pitch_request) = Returned tt.
Proof.
  apply (narrow_pitch_zero_bytes_per_pixel example_header flat_memory
           id_cache_addr narrow_pitch_request 8192 12288); try reflexivity.
  split; [discriminate | reflexivity].
Defined.

Lemma mixed_request_rejected_witness :
  HandleCopy example_header flat_memory id_cache_addr strided_upload_request
  = ([ log_requested; OnMemoryWrite; GetPointer 4096; GetPointer 8192 ],
     Aborted AssertionFailed).
Proof.
  apply (mixed_request_rejected example_header flat_memory id_cache_addr
           strided_upload_request 8192 12288); try reflexivity.
  right. split; [reflexivity|]. right. discriminate.
Defined.

Lemma linear_2d_copy_count_witness :
  exists copies,
    calls (HandleCopy example_header flat_memory id_cache_addr rows_request)
    = log_requested :: OnMemoryWrite :: copies /\
    length copies = 4%nat /\
    Forall (fun e => exists dest source, e = CopyBlock dest source 64) copies /\
    outcome (HandleCopy example_header flat_memory id_cache_addr rows_request)
    = Returned tt.
Proof.
  apply (linear_2d_copy_count example_header flat_memory id_cache_addr
           rows_request); reflexivity.
Defined.

Lemma unmapped_pointer_report_witness :
  HandleCopy example_header no_memory id_cache_addr readback_request
  = ([ log_requested; OnMemoryWrite; GetPointer 4096; GetPointer 8192;
       LogError "source_ptr is invalid" ], Returned tt).
Proof.
  destruct (unmapped_pointer_report example_header no_memory id_cache_addr
              readback_request eq_refl eq_refl eq_refl) as [Hsource _].
  apply Hsource. reflexivity.
Defined.

Lemma linear_request_outcome_witness :
  outcome (HandleCopy example_header flat_memory id_cache_addr buffer_request)
  = Returned tt /\
  Forall (fun e => is_lookup e = false /\ is_cache e = false
                   /\ is_transform e = false)
    (calls (HandleCopy example_header flat_memory id_cache_addr
              buffer_request)).
Proof.
  apply (linear_request_outcome example_header flat_memory id_cache_addr
           buffer_request). reflexivity.
Defined.

Lemma setup_then_launch_witness :
  CallMethods example_header flat_memory id_cache_addr reset_regs rows_setup
  = ([], Returned (apply_writes reset_regs rows_setup)) /\
  forall launch,
    CallMethods example_header flat_memory id_cache_addr reset_regs
      (rows_setup ++ [launch])
    = CallMethod example_header flat_memory id_cache_addr
        (apply_writes reset_regs rows_setup) launch.
Proof.
  apply (setup_then_launch example_header flat_memory id_cache_addr
           rows_setup reset_regs).
  repeat (constructor; [split; [reflexivity | discriminate]|]).
  constructor.
Defined.
